(** * django-safedelete: the manager layer (safedelete/managers.py)

    A shallow embedding of [SafeDeleteManager] and its two subclasses,
    together with the parts of the package the manager calls into
    ([config], [models], [queryset]).  The database is a list of rows; a
    queryset is a lazy description that is evaluated against a database. *)

From stdpp Require Import base decidable option list strings gmap fin_maps.
From Stdlib Require Import ZArith.

Local Open Scope Z_scope.

Set Warnings "-clear-no-such-hyp".

(** ** safedelete/config.py *)

Module config.

(** Modelled from the spec: [safedelete/config.py] holds the policy and
    visibility constants.  Section 2 of the specification lists the delete
    policies, section 3 the four visibility modes; [managers.py] and the
    tests import them under the names used here. *)
Inductive DeletePolicy : Set :=
| HARD_DELETE
| SOFT_DELETE
| SOFT_DELETE_CASCADE
| HARD_DELETE_NOCASCADE
| NO_DELETE.

(** Modelled from the spec: the visibility constants of
    [safedelete/config.py]; section 3: "one of {hidden, visible,
    only-deleted, visible-by-primary-key}". *)
Inductive Visibility : Set :=
| DELETED_INVISIBLE
| DELETED_VISIBLE_BY_PK
| DELETED_ONLY_VISIBLE
| DELETED_VISIBLE.

#[export] Instance DeletePolicy_eq_dec : EqDecision DeletePolicy.
Proof. solve_decision. Defined.

#[export] Instance Visibility_eq_dec : EqDecision Visibility.
Proof. solve_decision. Defined.

End config.

Export config.

(** ** Values, keyword arguments, model classes and rows *)

(** A value as it occurs in a column or in a lookup: [None], an integer,
    a string, a timestamp, or a reference to a row of another model (a
    relationship field). *)
Inductive Value : Type :=
| VNone
| VInt (n : Z)
| VStr (s : string)
| VTime (t : Z)
| VRef (target : string) (target_pk : Z).

#[export] Instance Value_eq_dec : EqDecision Value.
Proof. solve_decision. Defined.

(** [**kwargs]: a dictionary from names to values. *)
Abbreviation Kwargs := (gmap string Value).

Record Field : Type := mkField {
  field_name : string;
  field_unique : bool
}.

#[export] Instance Field_eq_dec : EqDecision Field.
Proof. solve_decision. Defined.

(** Modelled from the spec: a model class of [safedelete/models.py]: its
    label, the class attribute [_safedelete_policy] ("DeletePolicy:
    enumeration, immutable, attached per model class", section 3) and its
    declared fields. *)
Record Model : Type := mkModel {
  label : string;
  _safedelete_policy : DeletePolicy;
  fields : list Field
}.

#[export] Instance Model_eq_dec : EqDecision Model.
Proof. solve_decision. Defined.

(** Modelled from the spec: a model instance, which is also a stored row:
    its class, its primary key, the deleted marker ("a nullable timestamp
    field on each participating record; null = alive, non-null =
    soft-deleted", section 3) and the remaining columns. *)
Record Row : Type := mkRow {
  cls : Model;
  pk : Z;
  deleted : option Z;
  attrs : gmap string Value
}.

Abbreviation Database := (list Row).

(** The identity of a row in the database: the label of its model class
    (its table) and its primary key. *)
Definition key (r : Row) : string * Z := (label (cls r), pk r).

(** [obj.deleted = d] *)
Definition set_deleted (d : option Z) (r : Row) : Row :=
  {| cls := cls r; pk := pk r; deleted := d; attrs := attrs r |}.

(** A model of the host ORM's column access, for exact lookups only: the
    value found under a lookup name.  [pk] and [deleted] are the two
    columns every participating model has, any other name is looked up
    literally in the remaining columns.  Column aliases (the [id] of the
    primary key) and lookup suffixes are outside this model; see
    [lookups] for the host ORM taken as a parameter. *)
Definition row_attr (r : Row) (name : string) : option Value :=
  if bool_decide (name = "pk") then Some (VInt (pk r))
  else if bool_decide (name = "deleted") then
    Some (match deleted r with None => VNone | Some t => VTime t end)
  else attrs r !! name.

(** A model of the host ORM's matching, for exact lookups only: a row
    satisfies a dictionary of lookups when each named column holds
    exactly the given value; values are not coerced. *)
Definition row_matches (kwargs : Kwargs) (r : Row) : bool :=
  bool_decide (map_Forall (λ name v, row_attr r name = Some v) kwargs).

(** Errors raised to the caller. *)
Inductive Error : Set :=
| PolicyViolation
| ValidationError.

(** ** safedelete/models.py *)

Module models.

(** Modelled from the spec: [safedelete/models.py] (the model mixin) is not
    among the sources.  The policy is "attached per model class"
    (section 3). *)
Definition get_delete_policy (cls : Model) : DeletePolicy :=
  _safedelete_policy cls.

(** Modelled from the spec: the mixin's [has_unique_fields] is absent;
    [update_or_create] asks it whether "the model has at least one unique
    field" (section 4.2, and the comment in [update_or_create]). *)
Definition has_unique_fields (cls : Model) : bool :=
  existsb field_unique (fields cls).

(** Modelled from the spec: [save] of the mixin is absent; it is the host
    ORM's: the stored row with the instance's key is overwritten by the
    instance, and a row is appended when no stored row has that key. *)
Definition save (self : Row) (db : Database) : Database :=
  if bool_decide (key self ∈ key <$> db)
  then (λ r, if bool_decide (key r = key self) then self else r) <$> db
  else db ++ [self].

(** Modelled from the spec: the rows the relationship fields of [r] point
    at (section 4.3, "dependent records reachable via relationship
    fields"). *)
Definition ref_targets (r : Row) : list (string * Z) :=
  omap (λ v, match v with VRef l p => Some (l, p) | _ => None end)
       (map_to_list (attrs r)).*2.

(** Modelled from the spec: the keys of the rows of [db] that depend on a
    row with a key in [ks]. *)
Definition dependents (db : Database) (ks : gset (string * Z))
  : gset (string * Z) :=
  list_to_set
    (key <$> base.filter (λ r, Exists (λ k, k ∈ ks) (ref_targets r)) db).

(** Modelled from the spec: [n] rounds of following relationship fields
    backwards. *)
Fixpoint reachable (n : nat) (db : Database) (ks : gset (string * Z))
  : gset (string * Z) :=
  match n with
  | O => ks
  | S n' => reachable n' db (ks ∪ dependents db ks)
  end.

(** Modelled from the spec: the record itself and every dependent record
    reachable from it; a chain of distinct rows is no longer than the
    database (see [cascade_closed] and [cascade_least]). *)
Definition cascade (db : Database) (self : Row) : gset (string * Z) :=
  reachable (length db) db {[ key self ]}.

(** Modelled from the spec: writing the marker [d] to the rows with a key
    in [ks], and removing those rows. *)
Definition mark_rows (ks : gset (string * Z)) (d : option Z) (db : Database)
  : Database :=
  (λ r, if bool_decide (key r ∈ ks) then set_deleted d r else r) <$> db.

Definition remove_rows (ks : gset (string * Z)) (db : Database) : Database :=
  base.filter (λ r, key r ∉ ks) db.

(** Modelled from the spec: the mixin's [delete] is absent.  Section 4.3:
    "dispatches on DeletePolicy — NO_DELETE fails the operation;
    HARD_DELETE/HARD_DELETE_NOCASCADE remove the row (the latter without
    touching dependents); SOFT_DELETE/SOFT_DELETE_CASCADE set
    DeletedMarker, the cascade variant propagating the same marker-set to
    dependent records reachable via relationship fields"; section 7: the
    failure is a policy-violation error.  [now] is the timestamp written
    to the marker.  The result is the error raised, if any, and the
    database afterwards. *)
Definition delete (self : Row) (now : Z) (db : Database)
  : option Error * Database :=
  match get_delete_policy (cls self) with
  | NO_DELETE => (Some PolicyViolation, db)
  | HARD_DELETE => (None, remove_rows (cascade db self) db)
  | HARD_DELETE_NOCASCADE => (None, remove_rows {[ key self ]} db)
  | SOFT_DELETE => (None, mark_rows {[ key self ]} (Some now) db)
  | SOFT_DELETE_CASCADE => (None, mark_rows (cascade db self) (Some now) db)
  end.

(** Modelled from the spec: the mixin's [undelete] is absent.  Section 4.3:
    "undelete() clears the marker, recursively for cascade policy". *)
Definition undelete (self : Row) (db : Database) : option Error * Database :=
  match get_delete_policy (cls self) with
  | SOFT_DELETE_CASCADE => (None, mark_rows (cascade db self) None db)
  | _ => (None, mark_rows {[ key self ]} None db)
  end.

(** Modelled from the spec: [self] and the stored row [r] hold the same
    non-null value in the unique field [f]. *)
Definition unique_clash (self r : Row) (f : Field) : bool :=
  field_unique f &&
  match attrs self !! field_name f, attrs r !! field_name f with
  | Some v, Some w => bool_decide (v = w) && negb (bool_decide (v = VNone))
  | _, _ => false
  end.

(** Modelled from the spec: the mixin's [validate_unique] is absent.
    Section 7: "Uniqueness validation must consider soft-deleted rows";
    the test [test_validate_unique] expects a [ValidationError].  Every
    other stored row of the model is compared, whatever its marker. *)
Definition validate_unique (self : Row) (db : Database) : option Error :=
  if existsb (λ r, bool_decide (label (cls r) = label (cls self))
                   && negb (bool_decide (pk r = pk self))
                   && existsb (unique_clash self r) (fields (cls self))) db
  then Some ValidationError
  else None.

End models.

(** ** safedelete/queryset.py *)

Module queryset.

(** The class a queryset is an instance of: [SafeDeleteQueryset] or a
    subclass of it (the manager's [_queryset_class]). *)
Inductive QuerysetClass : Type :=
| SafeDeleteQueryset_class
| Subclass (name : string).

Inductive Clause : Type :=
| Filter (kwargs : Kwargs)
| Exclude (kwargs : Kwargs).

(** Modelled from the spec: [safedelete/queryset.py] is not among the
    sources.  Section 2: "a queryset wrapper that filters rows by a
    deleted marker and a visibility mode".  The record holds the three
    attributes [managers.py] writes, the model and database alias the
    constructor receives, and the lookups chained so far. *)
Record SafeDeleteQueryset : Type := mkQueryset {
  queryset_class : QuerysetClass;
  model : Model;
  _db : option string;
  _safedelete_visibility : Visibility;
  _safedelete_visibility_field : string;
  _safedelete_force_visibility : option Visibility;
  clauses : list Clause
}.

(** Modelled from the spec: the constructor, [klass(model, using=db)]: a
    fresh queryset in the hidden mode; nothing is forced and nothing is
    looked up yet. *)
Definition new (klass : QuerysetClass) (m : Model) (db_alias : option string)
  : SafeDeleteQueryset :=
  mkQueryset klass m db_alias DELETED_INVISIBLE "pk" None [].

(** Attribute writes: [qs._safedelete_visibility = v] and the like. *)
Definition set_safedelete_visibility (v : Visibility)
  (qs : SafeDeleteQueryset) : SafeDeleteQueryset :=
  mkQueryset (queryset_class qs) (model qs) (_db qs) v
    (_safedelete_visibility_field qs) (_safedelete_force_visibility qs)
    (clauses qs).

Definition set_safedelete_visibility_field (f : string)
  (qs : SafeDeleteQueryset) : SafeDeleteQueryset :=
  mkQueryset (queryset_class qs) (model qs) (_db qs)
    (_safedelete_visibility qs) f (_safedelete_force_visibility qs)
    (clauses qs).

Definition set_safedelete_force_visibility (v : Visibility)
  (qs : SafeDeleteQueryset) : SafeDeleteQueryset :=
  mkQueryset (queryset_class qs) (model qs) (_db qs)
    (_safedelete_visibility qs) (_safedelete_visibility_field qs) (Some v)
    (clauses qs).

Definition add_clause (c : Clause) (qs : SafeDeleteQueryset)
  : SafeDeleteQueryset :=
  mkQueryset (queryset_class qs) (model qs) (_db qs)
    (_safedelete_visibility qs) (_safedelete_visibility_field qs)
    (_safedelete_force_visibility qs) (clauses qs ++ [c]).

(** Modelled from the spec: the mode that governs the results: the forced
    one when there is one ("unless explicitly forced visible", section
    4.1), the queryset's own otherwise. *)
Definition visibility (qs : SafeDeleteQueryset) : Visibility :=
  default (_safedelete_visibility qs) (_safedelete_force_visibility qs).

(** Modelled from the spec: [qs.filter] with keyword lookups.  In the
    visible-by-primary-key mode a lookup on the visibility field makes
    soft-deleted rows visible. *)
Definition filter (qs : SafeDeleteQueryset) (kwargs : Kwargs)
  : SafeDeleteQueryset :=
  let qs :=
    if bool_decide (_safedelete_visibility qs = DELETED_VISIBLE_BY_PK)
       && bool_decide (is_Some (kwargs !! _safedelete_visibility_field qs))
    then set_safedelete_force_visibility DELETED_VISIBLE qs
    else qs in
  add_clause (Filter kwargs) qs.

(** Modelled from the spec: [qs.exclude] with keyword lookups. *)
Definition exclude (qs : SafeDeleteQueryset) (kwargs : Kwargs)
  : SafeDeleteQueryset :=
  add_clause (Exclude kwargs) qs.

(** Modelled from the spec: whether a row passes the deleted-marker
    filter of a mode (section 3: "null = alive, non-null = soft-deleted";
    section 4.1: "filters result rows by DeletedMarker according to
    VisibilityMode"). *)
Definition row_visible (v : Visibility) (r : Row) : bool :=
  match v with
  | DELETED_INVISIBLE | DELETED_VISIBLE_BY_PK => bool_decide (deleted r = None)
  | DELETED_ONLY_VISIBLE => negb (bool_decide (deleted r = None))
  | DELETED_VISIBLE => true
  end.

Definition clause_holds (r : Row) (c : Clause) : bool :=
  match c with
  | Filter kwargs => row_matches kwargs r
  | Exclude kwargs => negb (row_matches kwargs r)
  end.

(** Modelled from the spec: the rows a queryset selects: rows of its
    model that pass the visibility filter and every chained lookup. *)
Definition selects (qs : SafeDeleteQueryset) (r : Row) : bool :=
  bool_decide (label (cls r) = label (model qs))
  && row_visible (visibility qs) r
  && forallb (clause_holds r) (clauses qs).

(** Modelled from the spec: evaluating the queryset against the
    database; the rows come in stored order. *)
Definition evaluate (qs : SafeDeleteQueryset) (db : Database) : list Row :=
  List.filter (selects qs) db.

(** A chain of [filter] and [exclude] calls applied to a queryset. *)
Definition apply_lookups (qs : SafeDeleteQueryset) (cs : list Clause)
  : SafeDeleteQueryset :=
  foldl (λ qs c, match c with
                 | Filter kwargs => filter qs kwargs
                 | Exclude kwargs => exclude qs kwargs
                 end) qs cs.

(** Modelled from the spec: the row with the least primary key (the
    earliest stored one among equals), as the host ORM's ordering by
    primary key puts it first. *)
Fixpoint order_by_pk_first (rows : list Row) : option Row :=
  match rows with
  | [] => None
  | r :: rows' =>
      match order_by_pk_first rows' with
      | None => Some r
      | Some r' => if bool_decide (pk r ≤ pk r') then Some r else Some r'
      end
  end.

(** Modelled from the spec: [qs.first()], the host ORM's, for a model
    class that declares no ordering: the queryset is then ordered by
    primary key; [None] when nothing matches.  See [lookups.first] for
    the ordering taken as a parameter. *)
Definition first (qs : SafeDeleteQueryset) (db : Database) : option Row :=
  order_by_pk_first (evaluate qs db).

End queryset.

(** ** The host ORM's lookups and ordering, as parameters *)

Module lookups.

Import queryset.

Section HostORM.

(** What the host ORM does with keyword lookups and with the order of a
    result is not part of this package.  [resolve m kwargs] stands for
    the ORM reading [kwargs] against the model class [m]: it raises (an
    unknown field, a value that does not fit the column) or gives the
    test a row has to pass, whatever the lookups are (exact ones,
    suffixes such as [__startswith], aliases such as [id], coerced
    values).  [first_of m rows] stands for the row the ORM puts first
    among [rows]: by the ordering the model class declares, by primary
    key when it declares none. *)
Context {Exception : Type}.
Variable resolve : Model → Kwargs → Exception + (Row → bool).
Variable first_of : Model → list Row → option Row.

(** The test a chained [filter] or [exclude] stands for. *)
Definition resolve_clause (m : Model) (c : Clause)
  : Exception + (Row → bool) :=
  match c with
  | Filter kwargs => resolve m kwargs
  | Exclude kwargs =>
      match resolve m kwargs with
      | inl e => inl e
      | inr p => inr (λ r, negb (p r))
      end
  end.

(** The chained lookups together; the first one that raises decides. *)
Fixpoint resolve_clauses (m : Model) (cs : list Clause)
  : Exception + (Row → bool) :=
  match cs with
  | [] => inr (λ _, true)
  | c :: cs' =>
      match resolve_clause m c with
      | inl e => inl e
      | inr p =>
          match resolve_clauses m cs' with
          | inl e => inl e
          | inr q => inr (λ r, p r && q r)
          end
      end
  end.

(** Modelled from the spec: evaluating a queryset: the stored rows of its
    model that pass the visibility filter (section 4.1) and the chained
    lookups; or the exception a lookup raises. *)
Definition fetch (qs : SafeDeleteQueryset) (db : Database)
  : Exception + list Row :=
  match resolve_clauses (model qs) (clauses qs) with
  | inl e => inl e
  | inr p =>
      inr (List.filter
             (λ r, bool_decide (label (cls r) = label (model qs))
                   && row_visible (visibility qs) r
                   && p r) db)
  end.

(** [qs.first()]: the row the ORM puts first among the results, [None]
    when there is none; or the exception a lookup raises. *)
Definition first (qs : SafeDeleteQueryset) (db : Database)
  : Exception + option Row :=
  match fetch qs db with
  | inl e => inl e
  | inr rows => inr (first_of (model qs) rows)
  end.

End HostORM.

(** An instance: exact lookups that never raise ([row_matches]) and the
    ordering by primary key ([order_by_pk_first]). *)
Definition exact_lookups {Exception : Type} (m : Model) (kwargs : Kwargs)
  : Exception + (Row → bool) :=
  inr (row_matches kwargs).

Definition pk_first (m : Model) (rows : list Row) : option Row :=
  order_by_pk_first rows.

End lookups.

(** ** safedelete/managers.py *)

Module managers.

Import queryset.

(** A manager instance: the three attributes of [SafeDeleteManager]
    (class attributes that a subclass or [__init__] may override) and the
    [model] and [_db] the host ORM attaches to every manager. *)
Record Manager : Type := mkManager {
  _safedelete_visibility : Visibility;
  _safedelete_visibility_field : string;
  _queryset_class : QuerysetClass;
  model : Model;
  _db : option string
}.

(** The three manager classes of the module. *)
Inductive ManagerClass : Set :=
| SafeDeleteManager
| SafeDeleteAllManager
| SafeDeleteDeletedManager.

(** The class attribute [_safedelete_visibility]: [SafeDeleteManager]
    declares it, the two subclasses override it. *)
Definition class_safedelete_visibility (klass : ManagerClass) : Visibility :=
  match klass with
  | SafeDeleteManager => DELETED_INVISIBLE
  | SafeDeleteAllManager => DELETED_VISIBLE
  | SafeDeleteDeletedManager => DELETED_ONLY_VISIBLE
  end.

(** [_safedelete_visibility_field = 'pk'], inherited by the subclasses. *)
Definition class_safedelete_visibility_field (klass : ManagerClass) : string :=
  "pk".

(** [_queryset_class = SafeDeleteQueryset], inherited by the subclasses. *)
Definition class_queryset_class (klass : ManagerClass) : QuerysetClass :=
  SafeDeleteQueryset_class.

(** [__init__(self, queryset_class=None)]: an instance of [klass], attached
    to model [m] and database alias [db_alias]; a given queryset class
    replaces the class attribute. *)
Definition __init__ (klass : ManagerClass)
  (queryset_class : option QuerysetClass) (m : Model)
  (db_alias : option string) : Manager :=
  mkManager (class_safedelete_visibility klass)
            (class_safedelete_visibility_field klass)
            (match queryset_class with
             | Some c => c
             | None => class_queryset_class klass
             end)
            m db_alias.

Definition get_queryset (self : Manager) : SafeDeleteQueryset :=
  let queryset := queryset.new (_queryset_class self) (model self) (_db self) in
  let queryset :=
    set_safedelete_visibility (_safedelete_visibility self) queryset in
  let queryset :=
    set_safedelete_visibility_field (_safedelete_visibility_field self)
      queryset in
  queryset.

(** [all(self, **kwargs)]: the keyword arguments are a dictionary whose
    values are visibility constants or [None]; [force_visibility] is
    popped from it with default [None], any other keyword is ignored. *)
Definition all (self : Manager) (kwargs : gmap string (option Visibility))
  : SafeDeleteQueryset :=
  let force_visibility := default None (kwargs !! "force_visibility") in
  let qs := get_queryset self in
  match force_visibility with
  | Some v => set_safedelete_force_visibility v qs
  | None => qs
  end.

Definition all_with_deleted (self : Manager) : SafeDeleteQueryset :=
  all self {[ "force_visibility" := Some DELETED_VISIBLE ]}.

Definition deleted_only (self : Manager) : SafeDeleteQueryset :=
  all self {[ "force_visibility" := Some DELETED_ONLY_VISIBLE ]}.

Definition get_soft_delete_policies : list DeletePolicy :=
  [SOFT_DELETE; SOFT_DELETE_CASCADE].

(** A stored row that [update_or_create] may revive: a soft-deleted row of
    the manager's model that satisfies the lookups. *)
Definition revivable (self : Manager) (kwargs : Kwargs) (r : Row) : Prop :=
  label (cls r) = label (model self)
  ∧ deleted r ≠ None
  ∧ row_matches kwargs r = true.

(** The first half of [update_or_create], up to the call of the base
    class, when the lookups are exact and the model declares no ordering
    (see [update_or_create_exact]): the database after the revival of a
    soft-deleted row. *)
Definition update_or_create_revival (self : Manager) (kwargs : Kwargs)
  (db : Database) : Database :=
  if bool_decide (models.get_delete_policy (model self)
                    ∈ get_soft_delete_policies)
     && models.has_unique_fields (model self)
  then
    let deleted_object :=
      first (exclude (filter (all_with_deleted self) kwargs)
                     {[ "deleted" := VNone ]}) db in
    match deleted_object with
    | Some deleted_object =>
        models.save (set_deleted None deleted_object) db
    | None => db
    end
  else db.

(** A soft-deleted row of the manager's model that passes the test [p]
    the host ORM reads the lookups as. *)
Definition revivable_by (self : Manager) (p : Row → bool) (r : Row) : Prop :=
  label (cls r) = label (model self)
  ∧ deleted r ≠ None
  ∧ p r = true.

(** The stored rows the query of [update_or_create] is after, in stored
    order: the soft-deleted rows of the manager's model that pass the
    test [p] the host ORM reads the lookups as. *)
Definition soft_deleted_matches (self : Manager) (p : Row → bool)
  (db : Database) : list Row :=
  List.filter (λ r, bool_decide (label (cls r) = label (model self))
                    && negb (bool_decide (deleted r = None))
                    && p r) db.

Section BaseManager.

(** The host ORM: its reading of the lookups and its ordering (see
    [lookups]), and its [Manager.update_or_create], reached through
    [super()], which receives the manager, [defaults], the lookups and
    the database. *)
Context {Exception Outcome : Type}.
Variable resolve : Model → Kwargs → Exception + (Row → bool).
Variable first_of : Model → list Row → option Row.
Variable super_update_or_create :
  Manager → option Kwargs → Kwargs → Database → Outcome.

(** [update_or_create(self, defaults=None, **kwargs)]: an exception the
    query for the soft-deleted object raises leaves the method before the
    base class is called. *)
Definition update_or_create (self : Manager) (defaults : option Kwargs)
  (kwargs : Kwargs) (db : Database) : Exception + Outcome :=
  if bool_decide (models.get_delete_policy (model self)
                    ∈ get_soft_delete_policies)
     && models.has_unique_fields (model self)
  then
    match lookups.first resolve first_of
            (exclude (filter (all_with_deleted self) kwargs)
                     {[ "deleted" := VNone ]}) db with
    | inl e => inl e
    | inr deleted_object =>
        let db :=
          match deleted_object with
          | Some deleted_object =>
              models.save (set_deleted None deleted_object) db
          | None => db
          end in
        inr (super_update_or_create self defaults kwargs db)
    end
  else inr (super_update_or_create self defaults kwargs db).

End BaseManager.

End managers.

(** ** safedelete/tests/test_legacy.py: the models of the test suite *)

Module test_legacy.

Import managers.

Definition Author : Model :=
  mkModel "Author" HARD_DELETE_NOCASCADE [mkField "name" false].

Definition Category : Model :=
  mkModel "Category" SOFT_DELETE [mkField "name" true].

Definition Article : Model :=
  mkModel "Article" HARD_DELETE
    [mkField "name" false; mkField "author" false; mkField "category" false].

Definition VeryImportant : Model :=
  mkModel "VeryImportant" NO_DELETE [mkField "name" false].

(** [class CategoryManager(SafeDeleteManager)] with
    [_safedelete_visibility = DELETED_VISIBLE_BY_PK]. *)
Definition CategoryManager : Manager :=
  mkManager DELETED_VISIBLE_BY_PK "pk" queryset.SafeDeleteQueryset_class
    Category None.

Definition category (id : Z) (name : string) (d : option Z) : Row :=
  mkRow Category id d {[ "name" := VStr name ]}.

Definition article (id : Z) (name : string) (author : Z) (cat : option Z)
  : Row :=
  mkRow Article id None
    (<[ "name" := VStr name ]>
       (<[ "author" := VRef "Author" author ]>
          {[ "category" := match cat with
                           | Some c => VRef "Category" c
                           | None => VNone
                           end ]})).

(** The database of [test_validate_unique] after
    [Category.objects.create(name='test').delete()] at time [7]. *)
Definition after_create_delete : Database :=
  (models.delete (category 1 "test" None) 7 [category 1 "test" None]).2.

(** The categories of [AdminTestCase.setUp]: three are created and the
    second one is deleted, at time [7]. *)
Definition admin_categories : Database :=
  (models.delete (category 2 "category 1" None) 7
     [category 1 "category 0" None; category 2 "category 1" None;
      category 3 "category 2" None]).2.

End test_legacy.

(** ** A sample model with a unique and an ordinary field *)

Module sample.

Import managers.

Definition Tag : Model :=
  mkModel "Tag" SOFT_DELETE [mkField "slug" true; mkField "color" false].

Definition tag (id : Z) (slug color : string) (d : option Z) : Row :=
  mkRow Tag id d (<[ "slug" := VStr slug ]> {[ "color" := VStr color ]}).

(** Two soft-deleted green tags, the one with the larger key stored
    first, and a red one that is alive. *)
Definition tags : Database :=
  [tag 1 "a" "red" None; tag 3 "b" "green" (Some 9);
   tag 2 "c" "green" (Some 7)].

(** [objects = SafeDeleteManager()] on [Tag]. *)
Definition objects : Manager := __init__ SafeDeleteManager None Tag None.

(** A stand-in for the base class that hands back the database it is
    given. *)
Definition observe (self : Manager) (defaults : option Kwargs)
  (kwargs : Kwargs) (db : Database) : Database := db.

(** A second reading of the lookups, closer to the host ORM: [id] names
    the primary key too, and a name that is no column of the model
    raises. *)
Inductive LookupError : Set := FieldError.

Definition known_name (m : Model) (name : string) : bool :=
  bool_decide (name ∈ "pk" :: "id" :: "deleted" :: (field_name <$> fields m)).

Definition column (r : Row) (name : string) : option Value :=
  if bool_decide (name = "id") then Some (VInt (pk r)) else row_attr r name.

Definition strict_lookups (m : Model) (kwargs : Kwargs)
  : LookupError + (Row → bool) :=
  if bool_decide (map_Forall (λ name _, known_name m name = true) kwargs)
  then inr (λ r, bool_decide
                   (map_Forall (λ name v, column r name = Some v) kwargs))
  else inl FieldError.

End sample.

(** ** The rows [update_or_create] could revive *)

Section RepeatedCalls.

Import managers.

#[global] Instance revivable_dec (self : Manager) (kwargs : Kwargs) (r : Row) :
  Decision (revivable self kwargs r).
Proof. unfold revivable. apply _. Defined.


End RepeatedCalls.

(** * Properties *)

(** ** Facts about rows and querysets *)

Section QuerysetFacts.

Import queryset.

Lemma key_set_deleted (d : option Z) (r : Row) : key (set_deleted d r) = key r.
Proof. reflexivity. Qed.

Lemma set_deleted_set_deleted (d d' : option Z) (r : Row) :
  set_deleted d (set_deleted d' r) = set_deleted d r.
Proof. reflexivity. Qed.

Lemma set_deleted_id (r : Row) : set_deleted (deleted r) r = r.
Proof. by destruct r. Qed.

Lemma row_matches_deleted_None (r : Row) :
  row_matches {[ "deleted" := VNone ]} r = bool_decide (deleted r = None).
Proof.
  unfold row_matches. apply bool_decide_ext.
  rewrite map_Forall_singleton. unfold row_attr. simpl.
  destruct (deleted r); split; intros H; congruence.
Qed.

Lemma elem_of_evaluate (qs : SafeDeleteQueryset) (db : Database) (r : Row) :
  r ∈ evaluate qs db ↔ r ∈ db ∧ selects qs r = true.
Proof.
  unfold evaluate. rewrite !list_elem_of_In. apply filter_In.
Qed.

Lemma order_by_pk_first_None (rows : list Row) :
  order_by_pk_first rows = None ↔ rows = [].
Proof.
  destruct rows as [|r rows]; simpl; [done|].
  split; [|done].
  destruct (order_by_pk_first rows); [case_bool_decide|]; done.
Qed.

Lemma order_by_pk_first_Some (rows : list Row) (r : Row) :
  order_by_pk_first rows = Some r →
  r ∈ rows ∧ ∀ r', r' ∈ rows → pk r ≤ pk r'.
Proof.
  revert r. induction rows as [|x rows IH]; intros r; simpl; [done|].
  destruct (order_by_pk_first rows) as [m|] eqn:Hm.
  - destruct (IH m eq_refl) as [Hin Hle].
    case_bool_decide as Hxm; intros [= <-].
    + split; [left|]. intros r' [->|Hr']%elem_of_cons; [lia|].
      specialize (Hle r' Hr'). lia.
    + split; [by right|]. intros r' [->|Hr']%elem_of_cons; [lia|auto].
  - intros [= <-]. apply order_by_pk_first_None in Hm as ->.
    split; [left|]. intros r' [->|Hr']%elem_of_cons; [lia|].
    by apply elem_of_nil in Hr'.
Qed.

End QuerysetFacts.

(** ** Facts about [save] *)

Section SaveFacts.

Lemma save_stored (self : Row) (db : Database) :
  key self ∈ key <$> db →
  models.save self db
  = (λ r, if bool_decide (key r = key self) then self else r) <$> db.
Proof. intros Hin. unfold models.save. by rewrite bool_decide_eq_true_2. Qed.

(** Overwriting by key touches one position when keys are unique. *)
Lemma overwrite_by_key_insert (self r : Row) (db : Database) (i : nat) :
  NoDup (key <$> db) →
  db !! i = Some r →
  key r = key self →
  (λ x, if bool_decide (key x = key self) then self else x) <$> db
  = <[i := self]> db.
Proof.
  revert i. induction db as [|x db IH]; intros i Hnd Hi Hk; [done|].
  rewrite fmap_cons in Hnd. apply NoDup_cons in Hnd as [Hx Hnd].
  destruct i as [|i]; simpl in *.
  - injection Hi as ->. rewrite bool_decide_eq_true_2 by done. f_equal.
    assert (Hfresh : ∀ y, y ∈ db → key y ≠ key self).
    { intros y Hy Heq. apply Hx. rewrite Hk, <- Heq.
      by apply list_elem_of_fmap_2. }
    clear -Hfresh. induction db as [|y db IH]; [done|].
    rewrite fmap_cons, bool_decide_eq_false_2
      by (apply Hfresh; left).
    f_equal. apply IH. intros z Hz. apply Hfresh. by right.
  - rewrite bool_decide_eq_false_2.
    + f_equal. by apply IH.
    + intros Heq. apply Hx. rewrite Heq, <- Hk.
      apply list_elem_of_fmap_2. by eapply list_elem_of_lookup_2.
Qed.

Lemma save_insert (self r : Row) (db : Database) (i : nat) :
  NoDup (key <$> db) →
  db !! i = Some r →
  key r = key self →
  models.save self db = <[i := self]> db.
Proof.
  intros Hnd Hi Hk. rewrite save_stored.
  - by eapply overwrite_by_key_insert.
  - rewrite <- Hk. apply list_elem_of_fmap_2. by eapply list_elem_of_lookup_2.
Qed.

Lemma save_elem_of (self : Row) (db : Database) : self ∈ models.save self db.
Proof.
  unfold models.save. case_bool_decide as Hin.
  - apply list_elem_of_fmap in Hin as (r & Hk & Hr).
    apply list_elem_of_fmap. exists r. split; [|done].
    by rewrite bool_decide_eq_true_2.
  - apply elem_of_app. right. left.
Qed.

Lemma save_same_key (self x : Row) (db : Database) :
  x ∈ models.save self db → key x = key self → x = self.
Proof.
  unfold models.save. case_bool_decide as Hin.
  - intros (r & -> & Hr)%list_elem_of_fmap. case_bool_decide; [done|].
    intros; congruence.
  - intros [Hx| ->%list_elem_of_singleton]%elem_of_app; [|done].
    intros Hk. destruct Hin. rewrite <- Hk. by apply list_elem_of_fmap_2.
Qed.

End SaveFacts.

(** ** Facts about [all], [all_with_deleted] and [deleted_only] *)

Section EntryPointFacts.

Import queryset managers.

(** [all] reads nothing but the [force_visibility] keyword. *)
Lemma all_force_visibility (self : Manager)
  (kwargs : gmap string (option Visibility)) (v : Visibility) :
  all self (<[ "force_visibility" := Some v ]> kwargs)
  = set_safedelete_force_visibility v (get_queryset self).
Proof. unfold all. by rewrite lookup_insert_eq. Qed.

Lemma all_without_force_visibility (self : Manager)
  (kwargs : gmap string (option Visibility)) :
  all self (delete "force_visibility" kwargs) = get_queryset self.
Proof. unfold all. by rewrite lookup_delete_eq. Qed.

Lemma all_force_visibility_None (self : Manager)
  (kwargs : gmap string (option Visibility)) :
  all self (<[ "force_visibility" := None ]> kwargs) = get_queryset self.
Proof. unfold all. by rewrite lookup_insert_eq. Qed.

Lemma all_with_deleted_eq (self : Manager) :
  all_with_deleted self
  = set_safedelete_force_visibility DELETED_VISIBLE (get_queryset self).
Proof. apply (all_force_visibility self ∅). Qed.

Lemma deleted_only_eq (self : Manager) :
  deleted_only self
  = set_safedelete_force_visibility DELETED_ONLY_VISIBLE (get_queryset self).
Proof. apply (all_force_visibility self ∅). Qed.

Lemma all_no_arguments (self : Manager) : all self ∅ = get_queryset self.
Proof. unfold all. by rewrite lookup_empty. Qed.

(** What a manager's queryset selects once a mode is forced. *)
Lemma selects_forced (self : Manager) (v : Visibility) (r : Row) :
  selects (set_safedelete_force_visibility v (get_queryset self)) r
  = bool_decide (label (cls r) = label (model self)) && row_visible v r.
Proof. unfold selects; simpl. by rewrite andb_true_r. Qed.

End EntryPointFacts.

(** ** The revival step of [update_or_create] *)

Section RevivalFacts.

Import queryset managers.

(** The query of [update_or_create]:
    [self.all_with_deleted().filter(kwargs).exclude(deleted=None)]
    selects exactly the revivable rows. *)
Lemma selects_revival_query (self : Manager) (kwargs : Kwargs) (r : Row) :
  selects (exclude (filter (all_with_deleted self) kwargs)
                   {[ "deleted" := VNone ]}) r = true
  ↔ revivable self kwargs r.
Proof.
  rewrite all_with_deleted_eq.
  unfold revivable, selects, exclude, filter, get_queryset, visibility.
  destruct (bool_decide (_ = DELETED_VISIBLE_BY_PK) && _); simpl;
    rewrite row_matches_deleted_None, !andb_true_r, !andb_true_iff,
      bool_decide_eq_true, negb_true_iff, bool_decide_eq_false;
    tauto.
Qed.

Lemma first_revival_query (self : Manager) (kwargs : Kwargs) (db : Database) :
  match first (exclude (filter (all_with_deleted self) kwargs)
                       {[ "deleted" := VNone ]}) db with
  | Some r => r ∈ db ∧ revivable self kwargs r
              ∧ ∀ r', r' ∈ db → revivable self kwargs r' → pk r ≤ pk r'
  | None => ∀ r, r ∈ db → ¬ revivable self kwargs r
  end.
Proof.
  unfold first.
  destruct (order_by_pk_first _) as [r|] eqn:Hfirst.
  - apply order_by_pk_first_Some in Hfirst as [Hin Hmin].
    apply elem_of_evaluate in Hin as [Hin Hsel].
    apply selects_revival_query in Hsel.
    split_and!; [done..|]. intros r' Hr' Hrev. apply Hmin.
    apply elem_of_evaluate. split; [done|]. by apply selects_revival_query.
  - apply order_by_pk_first_None in Hfirst. intros r Hr Hrev.
    assert (Hin : r ∈ evaluate
                    (exclude (filter (all_with_deleted self) kwargs)
                             {[ "deleted" := VNone ]}) db).
    { apply elem_of_evaluate. split; [done|]. by apply selects_revival_query. }
    rewrite Hfirst in Hin. by apply elem_of_nil in Hin.
Qed.

(** The guard of [update_or_create] as a proposition. *)
Lemma revival_guard (self : Manager) :
  bool_decide (models.get_delete_policy (model self) ∈ get_soft_delete_policies)
  && models.has_unique_fields (model self) = true
  ↔ models.get_delete_policy (model self) ∈ get_soft_delete_policies
    ∧ models.has_unique_fields (model self) = true.
Proof. by rewrite andb_true_iff, bool_decide_eq_true. Qed.



End RevivalFacts.

(** ** The manager's query entry points *)

Section ManagerVisibility.

Import queryset managers.

(** What a manager's queryset selects when nothing is forced. *)
Lemma selects_get_queryset (self : Manager) (r : Row) :
  selects (get_queryset self) r
  = bool_decide (label (cls r) = label (model self))
    && row_visible (_safedelete_visibility self) r.
Proof. unfold selects, get_queryset; simpl. by rewrite andb_true_r. Qed.

(** Chained lookups on a hidden-mode queryset leave the mode alone. *)
Lemma apply_lookups_hidden (qs : SafeDeleteQueryset) (cs : list Clause) :
  queryset._safedelete_visibility qs = DELETED_INVISIBLE →
  _safedelete_force_visibility qs = None →
  visibility (apply_lookups qs cs) = DELETED_INVISIBLE
  ∧ queryset.model (apply_lookups qs cs) = queryset.model qs.
Proof.
  revert qs. induction cs as [|c cs IH]; intros qs Hvis Hforce.
  - unfold visibility. simpl. by rewrite Hforce, Hvis.
  - simpl. destruct c as [kwargs|kwargs]; unfold filter, exclude.
    + rewrite Hvis. simpl.
      exact (IH (add_clause (Filter kwargs) qs) Hvis Hforce).
    + exact (IH (add_clause (Exclude kwargs) qs) Hvis Hforce).
Qed.

(** C2: a soft-deleted record (deleted marker non-null) is left out of
    every default query of the default manager ([get_queryset], [all()]
    and any chain of lookups on it), and [all_with_deleted()] returns it. *)
Theorem soft_deleted_hidden_by_default_shown_with_deleted
  (queryset_class : option QuerysetClass) (m : Model)
  (db_alias : option string) (db : Database) (r : Row) :
  r ∈ db →
  label (cls r) = label m →
  deleted r ≠ None →
  let objects := __init__ SafeDeleteManager queryset_class m db_alias in
  (r ∉ evaluate (get_queryset objects) db)
  ∧ (r ∉ evaluate (all objects ∅) db)
  ∧ (∀ cs, r ∉ evaluate (apply_lookups (all objects ∅) cs) db)
  ∧ r ∈ evaluate (all_with_deleted objects) db.
Proof.
  intros Hin Hlabel Hdel objects.
  assert (Hhidden : ∀ cs,
             r ∉ evaluate (apply_lookups (all objects ∅) cs) db).
  { intros cs [_ Hsel]%elem_of_evaluate.
    destruct (apply_lookups_hidden (all objects ∅) cs) as [Hvis _];
      [done..|].
    unfold selects in Hsel. rewrite Hvis in Hsel. simpl in Hsel.
    rewrite (bool_decide_eq_false_2 _ Hdel), andb_false_r in Hsel. done. }
  split_and!; [apply (Hhidden []) | apply (Hhidden []) | done |].
  apply elem_of_evaluate. split; [done|].
  rewrite all_with_deleted_eq, selects_forced. simpl.
  by rewrite bool_decide_eq_true_2.
Qed.

(** C3: the three query entry points of [SafeDeleteManager]: the default
    one ([get_queryset], and [all()] without [force_visibility]) works in
    the hidden mode [DELETED_INVISIBLE]; [all_with_deleted()] forces
    [DELETED_VISIBLE] and [deleted_only()] forces [DELETED_ONLY_VISIBLE]
    on the queryset they return. *)
Theorem manager_entry_points
  (queryset_class : option QuerysetClass) (m : Model)
  (db_alias : option string) :
  let objects := __init__ SafeDeleteManager queryset_class m db_alias in
  all objects ∅ = get_queryset objects
  ∧ (∀ kwargs, all objects (delete "force_visibility" kwargs)
               = get_queryset objects)
  ∧ _safedelete_force_visibility (get_queryset objects) = None
  ∧ visibility (get_queryset objects) = DELETED_INVISIBLE
  ∧ _safedelete_force_visibility (all_with_deleted objects)
    = Some DELETED_VISIBLE
  ∧ visibility (all_with_deleted objects) = DELETED_VISIBLE
  ∧ _safedelete_force_visibility (deleted_only objects)
    = Some DELETED_ONLY_VISIBLE
  ∧ visibility (deleted_only objects) = DELETED_ONLY_VISIBLE.
Proof.
  intros objects. split_and!; try done.
  intros kwargs. apply all_without_force_visibility.
Qed.

(** C4: the queryset returned by [get_queryset] carries the visibility
    mode and the visibility field of the manager that made it (and its
    model, queryset class and database alias), nothing is forced on it,
    and its results are the rows of the model that the manager's mode
    lets through. *)
Theorem get_queryset_carries_manager_visibility (self : Manager) :
  queryset._safedelete_visibility (get_queryset self)
  = _safedelete_visibility self
  ∧ queryset._safedelete_visibility_field (get_queryset self)
    = _safedelete_visibility_field self
  ∧ queryset.model (get_queryset self) = model self
  ∧ queryset.queryset_class (get_queryset self) = _queryset_class self
  ∧ queryset._db (get_queryset self) = _db self
  ∧ _safedelete_force_visibility (get_queryset self) = None
  ∧ ∀ (db : Database) (r : Row),
      r ∈ evaluate (get_queryset self) db
      ↔ r ∈ db ∧ label (cls r) = label (model self)
        ∧ row_visible (_safedelete_visibility self) r = true.
Proof.
  split_and!; try done. intros db r.
  rewrite elem_of_evaluate, selects_get_queryset, andb_true_iff,
    bool_decide_eq_true.
  done.
Qed.

(** C5: the visibility mode of a manager is one of the four modes; an
    instance of [SafeDeleteManager] has [DELETED_INVISIBLE], one of
    [SafeDeleteAllManager] has [DELETED_VISIBLE] and one of
    [SafeDeleteDeletedManager] has [DELETED_ONLY_VISIBLE], whatever
    queryset class is handed to [__init__]. *)
Theorem manager_visibility_modes :
  (∀ self : Manager,
     _safedelete_visibility self
     ∈ [DELETED_INVISIBLE; DELETED_VISIBLE; DELETED_ONLY_VISIBLE;
        DELETED_VISIBLE_BY_PK])
  ∧ ∀ (queryset_class : option QuerysetClass) (m : Model)
      (db_alias : option string),
      _safedelete_visibility
        (__init__ SafeDeleteManager queryset_class m db_alias)
      = DELETED_INVISIBLE
      ∧ _safedelete_visibility
          (__init__ SafeDeleteAllManager queryset_class m db_alias)
        = DELETED_VISIBLE
      ∧ _safedelete_visibility
          (__init__ SafeDeleteDeletedManager queryset_class m db_alias)
        = DELETED_ONLY_VISIBLE.
Proof.
  split; [|done]. intros self.
  destruct (_safedelete_visibility self); set_solver.
Qed.

(** C9: a forced visibility wins over the manager's own mode.  For a
    manager with any mode, [all_with_deleted()] forces [DELETED_VISIBLE]
    and [deleted_only()] forces [DELETED_ONLY_VISIBLE], and the results
    follow the forced mode: on a [SafeDeleteAllManager] too,
    [deleted_only()] returns the soft-deleted rows of the model and no
    others.  [all()] forces whatever mode [force_visibility] names;
    without [force_visibility], or with [None] for it, it forces nothing
    and returns the queryset of [get_queryset]: the manager's own mode
    governs. *)
Theorem forced_visibility_takes_precedence :
  (∀ self : Manager,
     _safedelete_force_visibility (all_with_deleted self)
     = Some DELETED_VISIBLE
     ∧ visibility (all_with_deleted self) = DELETED_VISIBLE
     ∧ _safedelete_force_visibility (deleted_only self)
       = Some DELETED_ONLY_VISIBLE
     ∧ visibility (deleted_only self) = DELETED_ONLY_VISIBLE
     ∧ (∀ kwargs v,
          _safedelete_force_visibility
            (all self (<[ "force_visibility" := Some v ]> kwargs)) = Some v
          ∧ visibility (all self (<[ "force_visibility" := Some v ]> kwargs))
            = v)
     ∧ (∀ kwargs, all self (delete "force_visibility" kwargs)
                  = get_queryset self)
     ∧ (∀ kwargs, all self (<[ "force_visibility" := None ]> kwargs)
                  = get_queryset self)
     ∧ _safedelete_force_visibility (all self ∅) = None
     ∧ visibility (all self ∅) = _safedelete_visibility self
     ∧ (∀ (db : Database) (r : Row),
          r ∈ evaluate (all_with_deleted self) db
          ↔ r ∈ db ∧ label (cls r) = label (model self))
     ∧ (∀ (db : Database) (r : Row),
          r ∈ evaluate (deleted_only self) db
          ↔ r ∈ db ∧ label (cls r) = label (model self)
            ∧ deleted r ≠ None)
     ∧ (∀ (db : Database) (r : Row),
          r ∈ evaluate (all self ∅) db
          ↔ r ∈ db ∧ label (cls r) = label (model self)
            ∧ row_visible (_safedelete_visibility self) r = true))
  ∧ ∀ (queryset_class : option QuerysetClass) (m : Model)
      (db_alias : option string) (db : Database) (r : Row),
      r ∈ evaluate
            (deleted_only
               (__init__ SafeDeleteAllManager queryset_class m db_alias)) db
      ↔ r ∈ db ∧ label (cls r) = label m ∧ deleted r ≠ None.
Proof.
  assert (Honly : ∀ (self : Manager) (db : Database) (r : Row),
             r ∈ evaluate (deleted_only self) db
             ↔ r ∈ db ∧ label (cls r) = label (model self)
               ∧ deleted r ≠ None).
  { intros self db r.
    rewrite deleted_only_eq, elem_of_evaluate, selects_forced, andb_true_iff,
      bool_decide_eq_true.
    simpl. by rewrite negb_true_iff, bool_decide_eq_false. }
  split.
  - intros self. split_and!; try done.
    + intros kwargs v. by rewrite all_force_visibility.
    + intros kwargs. apply all_without_force_visibility.
    + intros kwargs. apply all_force_visibility_None.
    + intros db r.
      rewrite all_with_deleted_eq, elem_of_evaluate, selects_forced,
        andb_true_iff, bool_decide_eq_true.
      simpl. tauto.
    + intros db r.
      rewrite all_no_arguments, elem_of_evaluate, selects_get_queryset, andb_true_iff,
        bool_decide_eq_true.
      done.
  - intros queryset_class m db_alias db r. by rewrite Honly.
Qed.

End ManagerVisibility.

(** ** The manager of the test suite *)

Section TestLegacy.

Import queryset managers test_legacy.

(** [test_admin_model]: the default queryset counts the two categories
    that are alive, the one with the deleted categories all three. *)
Example admin_categories_counts :
  length (evaluate (all CategoryManager ∅) admin_categories) = 2%nat
  ∧ length (evaluate (all_with_deleted CategoryManager) admin_categories)
    = 3%nat
  ∧ evaluate (deleted_only CategoryManager) admin_categories
    = [category 2 "category 1" (Some 7)].
Proof. split_and!; vm_compute; reflexivity. Qed.

(** [test_admin_undelete_action] fetches the deleted category by primary
    key through [CategoryManager], whose mode is
    [DELETED_VISIBLE_BY_PK]; a lookup by name does not find it. *)
Example deleted_category_visible_by_pk :
  evaluate (filter (all CategoryManager ∅) {[ "pk" := VInt 2 ]})
    admin_categories
  = [category 2 "category 1" (Some 7)]
  ∧ evaluate (filter (all CategoryManager ∅) {[ "name" := VStr "category 1" ]})
      admin_categories
    = [].
Proof. split; vm_compute; reflexivity. Qed.

End TestLegacy.

(** ** [update_or_create] *)

Section UpdateOrCreate.

Import queryset managers.

Context {Exception Outcome : Type}.
Variable resolve : Model → Kwargs → Exception + (Row → bool).
Variable first_of : Model → list Row → option Row.
Variable super_update_or_create :
  Manager → option Kwargs → Kwargs → Database → Outcome.

(** What is assumed of the host ORM: it reads [deleted=None] as "the
    marker is null", and the row it puts first among some rows is one of
    them, with no row only when there are none. *)
Hypothesis resolve_deleted_None :
  ∀ m, ∃ p, resolve m {[ "deleted" := VNone ]} = inr p
            ∧ ∀ r, p r = bool_decide (deleted r = None).
Hypothesis first_of_elem :
  ∀ m rows r, first_of m rows = Some r → r ∈ rows.
Hypothesis first_of_None :
  ∀ m rows, first_of m rows = None → rows = [].

Lemma elem_of_soft_deleted_matches (self : Manager) (p : Row → bool)
  (db : Database) (r : Row) :
  r ∈ soft_deleted_matches self p db ↔ r ∈ db ∧ revivable_by self p r.
Proof.
  unfold soft_deleted_matches, revivable_by.
  rewrite list_elem_of_In, filter_In, <- list_elem_of_In, !andb_true_iff,
    bool_decide_eq_true, negb_true_iff, bool_decide_eq_false.
  tauto.
Qed.

(** The query of [update_or_create],
    [self.all_with_deleted().filter(kwargs).exclude(deleted=None)],
    fetches the soft-deleted rows of the model that pass the lookups,
    whatever the manager's own mode. *)
Lemma revival_query_fetch (self : Manager) (kwargs : Kwargs)
  (p : Row → bool) (db : Database) :
  resolve (model self) kwargs = inr p →
  lookups.fetch resolve
    (exclude (filter (all_with_deleted self) kwargs) {[ "deleted" := VNone ]})
    db
  = inr (soft_deleted_matches self p db).
Proof.
  intros Hp. rewrite all_with_deleted_eq.
  destruct (resolve_deleted_None (model self)) as (pd & Hpd & Hnull).
  unfold lookups.fetch, exclude, filter, visibility, soft_deleted_matches.
  destruct (bool_decide (_ = DELETED_VISIBLE_BY_PK) && _); simpl;
    rewrite Hp, Hpd; f_equal; apply filter_ext; intros r;
    rewrite Hnull;
    destruct (bool_decide (label (cls r) = label (model self))),
      (bool_decide (deleted r = None)), (p r); done.
Qed.

Lemma revival_query_raises (self : Manager) (kwargs : Kwargs)
  (e : Exception) (db : Database) :
  resolve (model self) kwargs = inl e →
  lookups.first resolve first_of
    (exclude (filter (all_with_deleted self) kwargs) {[ "deleted" := VNone ]})
    db
  = inl e.
Proof.
  intros He. rewrite all_with_deleted_eq.
  unfold lookups.first, lookups.fetch, exclude, filter.
  destruct (bool_decide (_ = DELETED_VISIBLE_BY_PK) && _); simpl;
    by rewrite He.
Qed.

Lemma revival_query_first (self : Manager) (kwargs : Kwargs)
  (p : Row → bool) (db : Database) :
  resolve (model self) kwargs = inr p →
  lookups.first resolve first_of
    (exclude (filter (all_with_deleted self) kwargs) {[ "deleted" := VNone ]})
    db
  = inr (first_of (model self) (soft_deleted_matches self p db)).
Proof.
  intros Hp. unfold lookups.first. rewrite (revival_query_fetch _ _ p) by done.
  f_equal. f_equal. rewrite all_with_deleted_eq. unfold exclude, filter.
  by destruct (bool_decide (_ = DELETED_VISIBLE_BY_PK) && _).
Qed.

(** An exception raised by the query leaves [update_or_create] before the
    base class is reached. *)
Lemma update_or_create_query_error (self : Manager)
  (defaults : option Kwargs) (kwargs : Kwargs) (db : Database)
  (e : Exception) :
  models.get_delete_policy (model self) ∈ [SOFT_DELETE; SOFT_DELETE_CASCADE] →
  models.has_unique_fields (model self) = true →
  resolve (model self) kwargs = inl e →
  update_or_create resolve first_of super_update_or_create self defaults
    kwargs db
  = inl e.
Proof.
  intros Hpol Huniq He. unfold update_or_create.
  rewrite (proj2 (revival_guard self)) by done.
  by rewrite (revival_query_raises _ _ e).
Qed.

Lemma update_or_create_unguarded (self : Manager)
  (defaults : option Kwargs) (kwargs : Kwargs) (db : Database) :
  ¬ (models.get_delete_policy (model self) ∈ [SOFT_DELETE; SOFT_DELETE_CASCADE]
     ∧ models.has_unique_fields (model self) = true) →
  update_or_create resolve first_of super_update_or_create self defaults
    kwargs db
  = inr (super_update_or_create self defaults kwargs db).
Proof.
  intros Hno. unfold update_or_create.
  destruct (_ && _) eqn:Hguard; [|done].
  by apply revival_guard in Hguard.
Qed.

Lemma update_or_create_guarded (self : Manager)
  (defaults : option Kwargs) (kwargs : Kwargs) (db : Database)
  (p : Row → bool) :
  models.get_delete_policy (model self) ∈ [SOFT_DELETE; SOFT_DELETE_CASCADE] →
  models.has_unique_fields (model self) = true →
  resolve (model self) kwargs = inr p →
  update_or_create resolve first_of super_update_or_create self defaults
    kwargs db
  = inr (super_update_or_create self defaults kwargs
           (match first_of (model self) (soft_deleted_matches self p db) with
            | Some r => models.save (set_deleted None r) db
            | None => db
            end)).
Proof.
  intros Hpol Huniq Hp. unfold update_or_create.
  rewrite (proj2 (revival_guard self)) by done.
  by rewrite (revival_query_first _ _ p).
Qed.

Lemma update_or_create_nothing_to_revive (self : Manager)
  (defaults : option Kwargs) (kwargs : Kwargs) (db : Database)
  (p : Row → bool) :
  resolve (model self) kwargs = inr p →
  (∀ r, r ∈ db → ¬ revivable_by self p r) →
  update_or_create resolve first_of super_update_or_create self defaults
    kwargs db
  = inr (super_update_or_create self defaults kwargs db).
Proof.
  intros Hp Hnone.
  destruct (decide (models.get_delete_policy (model self)
                      ∈ [SOFT_DELETE; SOFT_DELETE_CASCADE])) as [Hpol|Hpol];
    [|apply update_or_create_unguarded; tauto].
  destruct (models.has_unique_fields (model self)) eqn:Huniq;
    [|apply update_or_create_unguarded; rewrite Huniq; intros [_ [=]]].
  rewrite (update_or_create_guarded _ _ _ _ p) by done.
  destruct (first_of _ _) as [r|] eqn:Hfirst; [|done].
  apply first_of_elem, elem_of_soft_deleted_matches in Hfirst as [Hr Hrev].
  by destruct (Hnone r).
Qed.

Lemma update_or_create_revives_first (self : Manager)
  (defaults : option Kwargs) (kwargs : Kwargs) (db : Database)
  (p : Row → bool) :
  models.get_delete_policy (model self) ∈ [SOFT_DELETE; SOFT_DELETE_CASCADE] →
  models.has_unique_fields (model self) = true →
  resolve (model self) kwargs = inr p →
  (∃ r0, r0 ∈ db ∧ revivable_by self p r0) →
  ∃ r, r ∈ db ∧ revivable_by self p r
       ∧ first_of (model self) (soft_deleted_matches self p db) = Some r
       ∧ update_or_create resolve first_of super_update_or_create self
           defaults kwargs db
         = inr (super_update_or_create self defaults kwargs
                  (models.save (set_deleted None r) db)).
Proof.
  intros Hpol Huniq Hp (r0 & Hr0 & Hrev0).
  rewrite (update_or_create_guarded _ _ _ _ p) by done.
  destruct (first_of _ _) as [r|] eqn:Hfirst.
  - pose proof (first_of_elem _ _ _ Hfirst) as Hin.
    apply elem_of_soft_deleted_matches in Hin as [Hr Hrev]. by exists r.
  - apply first_of_None in Hfirst.
    assert (Hin : r0 ∈ soft_deleted_matches self p db)
      by by apply elem_of_soft_deleted_matches.
    rewrite Hfirst in Hin. by apply elem_of_nil in Hin.
Qed.

(** C1: when the model's policy is a soft-delete policy, the model has a
    unique field and a soft-deleted row of the model passes the lookups
    (as the host ORM reads them), then the row the ORM puts first among
    the soft-deleted rows that pass has its deleted marker set to null in
    the database, and the base class's [update_or_create] runs on that
    database; in every other case the base class's [update_or_create]
    runs on the database as it was.  The lookups are those the ORM
    accepts for the query of the soft-deleted object; without a
    soft-delete policy or a unique field no query is made and the call
    goes to the base class whatever the lookups are. *)
Theorem update_or_create_revives_then_delegates
  (self : Manager) (defaults : option Kwargs) (kwargs : Kwargs)
  (db : Database) :
  (¬ (models.get_delete_policy (model self)
        ∈ [SOFT_DELETE; SOFT_DELETE_CASCADE]
      ∧ models.has_unique_fields (model self) = true) →
   update_or_create resolve first_of super_update_or_create self defaults
     kwargs db
   = inr (super_update_or_create self defaults kwargs db))
  ∧ ∀ p, resolve (model self) kwargs = inr p →
      (models.get_delete_policy (model self)
         ∈ [SOFT_DELETE; SOFT_DELETE_CASCADE] →
       models.has_unique_fields (model self) = true →
       (∃ r0, r0 ∈ db ∧ revivable_by self p r0) →
       ∃ r, r ∈ db ∧ revivable_by self p r
            ∧ first_of (model self) (soft_deleted_matches self p db) = Some r
            ∧ set_deleted None r ∈ models.save (set_deleted None r) db
            ∧ (∀ x, x ∈ models.save (set_deleted None r) db →
                    key x = key r → deleted x = None)
            ∧ update_or_create resolve first_of super_update_or_create self
                defaults kwargs db
              = inr (super_update_or_create self defaults kwargs
                       (models.save (set_deleted None r) db)))
      ∧ (¬ (models.get_delete_policy (model self)
              ∈ [SOFT_DELETE; SOFT_DELETE_CASCADE]
            ∧ models.has_unique_fields (model self) = true
            ∧ ∃ r0, r0 ∈ db ∧ revivable_by self p r0) →
         update_or_create resolve first_of super_update_or_create self
           defaults kwargs db
         = inr (super_update_or_create self defaults kwargs db)).
Proof.
  split; [apply update_or_create_unguarded|]. intros p Hp. split.
  - intros Hpol Huniq Hex.
    destruct (update_or_create_revives_first self defaults kwargs db p
                Hpol Huniq Hp Hex) as (r & Hr & Hrev & Hfirst & Heq).
    exists r. split_and!; [done..|apply save_elem_of| |done].
    intros x Hx Hk.
    by rewrite (save_same_key (set_deleted None r) x db Hx Hk).
  - intros Hno.
    destruct (decide (models.get_delete_policy (model self)
                        ∈ [SOFT_DELETE; SOFT_DELETE_CASCADE])) as [Hpol|Hpol];
      [|apply update_or_create_unguarded; tauto].
    destruct (models.has_unique_fields (model self)) eqn:Huniq;
      [|apply update_or_create_unguarded; rewrite Huniq; intros [_ [=]]].
    apply (update_or_create_nothing_to_revive _ _ _ _ p Hp).
    intros r Hr Hrev. apply Hno. eauto.
Qed.

(** C10: in a database whose keys are unique, [update_or_create] revives
    at most one row before it calls the base class.  When it revives
    (soft-delete policy, a unique field, a soft-deleted row of the model
    that passes the lookups), the database handed to the base class is
    the old one with a single position overwritten: the row the host ORM
    puts first among the soft-deleted rows that pass, its marker
    cleared; every other position, the markers of further matching
    soft-deleted rows included, is as before.  When the model has no
    unique field or a policy that is not a soft-delete policy, the
    database is handed on unchanged whatever the lookups are; so it is
    when no soft-deleted row of the model passes them. *)
Theorem update_or_create_revives_at_most_one
  (self : Manager) (defaults : option Kwargs) (kwargs : Kwargs)
  (db : Database) :
  NoDup (key <$> db) →
  (models.get_delete_policy (model self) ∉ [SOFT_DELETE; SOFT_DELETE_CASCADE]
   ∨ models.has_unique_fields (model self) = false →
   update_or_create resolve first_of super_update_or_create self defaults
     kwargs db
   = inr (super_update_or_create self defaults kwargs db))
  ∧ ∀ p, resolve (model self) kwargs = inr p →
      (models.get_delete_policy (model self)
         ∈ [SOFT_DELETE; SOFT_DELETE_CASCADE] →
       models.has_unique_fields (model self) = true →
       (∃ r0, r0 ∈ db ∧ revivable_by self p r0) →
       ∃ (i : nat) (r : Row),
         db !! i = Some r
         ∧ revivable_by self p r
         ∧ first_of (model self) (soft_deleted_matches self p db) = Some r
         ∧ update_or_create resolve first_of super_update_or_create self
             defaults kwargs db
           = inr (super_update_or_create self defaults kwargs
                    (<[i := set_deleted None r]> db))
         ∧ <[i := set_deleted None r]> db !! i = Some (set_deleted None r)
         ∧ ∀ j, j ≠ i → <[i := set_deleted None r]> db !! j = db !! j)
      ∧ ((∀ r, r ∈ db → ¬ revivable_by self p r) →
         update_or_create resolve first_of super_update_or_create self
           defaults kwargs db
         = inr (super_update_or_create self defaults kwargs db)).
Proof.
  intros Hnd. split.
  - intros Hcase. apply update_or_create_unguarded. intros [Hpol Huniq].
    destruct Hcase as [Hnpol|Hnuniq]; [done|congruence].
  - intros p Hp. split.
    + intros Hpol Huniq Hex.
      destruct (update_or_create_revives_first self defaults kwargs db p
                  Hpol Huniq Hp Hex) as (r & Hr & Hrev & Hfirst & Heq).
      apply list_elem_of_lookup in Hr as [i Hi]. exists i, r.
      split_and!; [done..| | |].
      * rewrite Heq. by rewrite (save_insert _ r db i).
      * apply list_lookup_insert_eq. by eapply lookup_lt_Some.
      * intros j Hj. by apply list_lookup_insert_ne.
    + by apply update_or_create_nothing_to_revive.
Qed.

End UpdateOrCreate.

(** ** Exact lookups and the ordering by primary key *)

Section ExactLookups.

Import queryset managers.

Lemma exact_lookups_deleted_None {Exception : Type} (m : Model) :
  ∃ p, lookups.exact_lookups (Exception := Exception) m
         {[ "deleted" := VNone ]} = inr p
       ∧ ∀ r, p r = bool_decide (deleted r = None).
Proof.
  exists (row_matches {[ "deleted" := VNone ]}). split; [done|].
  apply row_matches_deleted_None.
Qed.

Lemma pk_first_elem (m : Model) (rows : list Row) (r : Row) :
  lookups.pk_first m rows = Some r → r ∈ rows.
Proof. intros Hfirst. by apply order_by_pk_first_Some in Hfirst as [? _]. Qed.

Lemma pk_first_None (m : Model) (rows : list Row) :
  lookups.pk_first m rows = None → rows = [].
Proof. apply order_by_pk_first_None. Qed.

Lemma evaluate_revival_query (self : Manager) (kwargs : Kwargs)
  (db : Database) :
  evaluate (exclude (filter (all_with_deleted self) kwargs)
                    {[ "deleted" := VNone ]}) db
  = soft_deleted_matches self (row_matches kwargs) db.
Proof.
  unfold evaluate, soft_deleted_matches. apply filter_ext. intros r.
  apply eq_true_iff_eq.
  rewrite selects_revival_query, !andb_true_iff, bool_decide_eq_true,
    negb_true_iff, bool_decide_eq_false.
  unfold revivable. tauto.
Qed.

(** With exact lookups and a model that declares no ordering,
    [update_or_create] does not raise and hands the base class the
    database of [update_or_create_revival]. *)
Lemma update_or_create_exact {Exception Outcome : Type}
  (super_update_or_create :
     Manager → option Kwargs → Kwargs → Database → Outcome)
  (self : Manager) (defaults : option Kwargs) (kwargs : Kwargs)
  (db : Database) :
  update_or_create (Exception := Exception) lookups.exact_lookups
    lookups.pk_first super_update_or_create self defaults kwargs db
  = inr (super_update_or_create self defaults kwargs
           (update_or_create_revival self kwargs db)).
Proof.
  unfold update_or_create, update_or_create_revival.
  destruct (_ && _); [|done].
  rewrite (revival_query_first lookups.exact_lookups lookups.pk_first
             exact_lookups_deleted_None self kwargs (row_matches kwargs))
    by done.
  unfold first. by rewrite evaluate_revival_query.
Qed.

(** With the stricter reading, a lookup on [id] revives the row with that
    primary key, and a lookup on a name the model does not have raises
    before the base class is called. *)
Example update_or_create_strict_lookups :
  update_or_create sample.strict_lookups lookups.pk_first sample.observe
    sample.objects None {[ "id" := VInt 3 ]} sample.tags
  = inr [sample.tag 1 "a" "red" None; sample.tag 3 "b" "green" None;
         sample.tag 2 "c" "green" (Some 7)]
  ∧ update_or_create sample.strict_lookups lookups.pk_first sample.observe
      sample.objects None {[ "colour" := VStr "green" ]} sample.tags
    = inl sample.FieldError.
Proof. split; vm_compute; reflexivity. Qed.

End ExactLookups.

(** ** The cascade reaches every dependent *)

Section CascadeFacts.

Local Open Scope nat_scope.

Lemma reachable_includes (n : nat) (db : Database) (ks : gset (string * Z)) :
  ks ⊆ models.reachable n db ks.
Proof.
  revert ks. induction n as [|n IH]; intros ks; simpl; [done|].
  etrans; [|apply IH]. set_solver.
Qed.

Lemma cascade_includes_self (db : Database) (self : Row) :
  key self ∈ models.cascade db self.
Proof.
  unfold models.cascade.
  apply (reachable_includes (length db) db {[ key self ]}). set_solver.
Qed.

Lemma dependents_stored (db : Database) (ks : gset (string * Z)) :
  models.dependents db ks ⊆ list_to_set (key <$> db).
Proof.
  unfold models.dependents. intros k.
  rewrite !elem_of_list_to_set, !list_elem_of_fmap.
  intros (r & -> & [_ Hr]%list_elem_of_filter). eauto.
Qed.

Lemma dependents_mono (db : Database) (ks ks' : gset (string * Z)) :
  ks ⊆ ks' → models.dependents db ks ⊆ models.dependents db ks'.
Proof.
  intros Hsub k. unfold models.dependents.
  rewrite !elem_of_list_to_set, !list_elem_of_fmap.
  intros (r & -> & [Hex Hr]%list_elem_of_filter).
  exists r. split; [done|]. apply list_elem_of_filter. split; [|done].
  eapply Exists_impl; [exact Hex|]. intros k' Hk'. by apply Hsub.
Qed.

Lemma size_stored_keys (db : Database) :
  size (list_to_set (key <$> db) : gset (string * Z)) ≤ length db.
Proof.
  induction db as [|r db IH].
  - by rewrite fmap_nil, list_to_set_nil, size_empty.
  - rewrite fmap_cons, list_to_set_cons, size_union_alt, size_singleton.
    simpl length.
    assert (Hle : size (list_to_set (key <$> db) ∖ {[ key r ]}
                        : gset (string * Z))
                  ≤ size (list_to_set (key <$> db) : gset (string * Z)))
      by (apply subseteq_size; set_solver).
    lia.
Qed.

Lemma reachable_fixed (n : nat) (db : Database) (ks : gset (string * Z)) :
  models.dependents db ks ⊆ ks → models.reachable n db ks = ks.
Proof.
  intros Hclosed. induction n as [|n IH]; simpl; [done|].
  by replace (ks ∪ models.dependents db ks) with ks by set_solver.
Qed.

(** Once the number of rounds covers the keys not yet collected, the
    collected set is closed under taking dependents. *)
Lemma reachable_closed (n : nat) (db : Database) (ks : gset (string * Z)) :
  size (ks ∪ list_to_set (key <$> db)) ≤ size ks + n →
  models.dependents db (models.reachable n db ks) ⊆ models.reachable n db ks.
Proof.
  pose proof (dependents_stored db) as Hstored.
  revert ks. induction n as [|n IH]; intros ks Hsize; simpl.
  - assert (Heq : ks = ks ∪ list_to_set (key <$> db)).
    { apply set_subseteq_size_eq; [set_solver|lia]. }
    specialize (Hstored ks). set_solver.
  - destruct (decide (models.dependents db ks ⊆ ks)) as [Hclosed|Hopen].
    + replace (ks ∪ models.dependents db ks) with ks by set_solver.
      by rewrite reachable_fixed.
    + apply IH.
      assert (Hgrow : ks ⊂ ks ∪ models.dependents db ks) by set_solver.
      apply subset_size in Hgrow.
      replace (ks ∪ models.dependents db ks ∪ list_to_set (key <$> db))
        with (ks ∪ list_to_set (key <$> db)); [lia|].
      specialize (Hstored ks). set_solver.
Qed.

(** The keys [cascade] collects are closed under taking dependents: the
    rounds it runs are enough. *)
Lemma cascade_closed (db : Database) (self : Row) :
  models.dependents db (models.cascade db self) ⊆ models.cascade db self.
Proof.
  apply reachable_closed.
  rewrite size_union_alt, size_singleton.
  pose proof (size_stored_keys db) as Hle.
  assert (Hsub : size (list_to_set (key <$> db) ∖ {[ key self ]}
                       : gset (string * Z))
                 ≤ size (list_to_set (key <$> db) : gset (string * Z)))
    by (apply subseteq_size; set_solver).
  lia.
Qed.

(** And nothing else is collected: [cascade] is within every set that
    holds the record's key and is closed under taking dependents. *)
Lemma cascade_least (db : Database) (self : Row) (ks : gset (string * Z)) :
  key self ∈ ks →
  models.dependents db ks ⊆ ks →
  models.cascade db self ⊆ ks.
Proof.
  intros Hself Hclosed. unfold models.cascade.
  assert (Hind : ∀ n ks0, ks0 ⊆ ks → models.reachable n db ks0 ⊆ ks).
  { induction n as [|n IH]; intros ks0 Hsub; simpl; [done|].
    apply IH. pose proof (dependents_mono db ks0 ks Hsub). set_solver. }
  apply Hind. set_solver.
Qed.

End CascadeFacts.

(** ** [delete], [undelete] and [validate_unique] of the model mixin *)

Section ModelMixin.

Import queryset managers.

Lemma mark_rows_marked (ks : gset (string * Z)) (d : option Z)
  (db : Database) (r : Row) :
  r ∈ db → key r ∈ ks → set_deleted d r ∈ models.mark_rows ks d db.
Proof.
  intros Hin Hk. unfold models.mark_rows. apply list_elem_of_fmap.
  exists r. split; [|done]. by rewrite bool_decide_eq_true_2.
Qed.

Lemma mark_rows_inv (ks : gset (string * Z)) (d : option Z)
  (db : Database) (x : Row) :
  x ∈ models.mark_rows ks d db → key x ∈ ks → deleted x = d.
Proof.
  unfold models.mark_rows. intros (r & -> & Hr)%list_elem_of_fmap.
  case_bool_decide as Hin; [done|]. intros Hk. by destruct Hin.
Qed.

(** The database after a soft delete, and after the undelete that follows
    it: both mark a set of keys that holds the record's own key. *)
Lemma soft_delete_marks (self : Row) (now : Z) (db : Database) :
  models.get_delete_policy (cls self) ∈ get_soft_delete_policies →
  ∃ ks, key self ∈ ks
        ∧ models.delete self now db = (None, models.mark_rows ks (Some now) db).
Proof.
  unfold models.delete, get_soft_delete_policies.
  rewrite !elem_of_cons, elem_of_nil. intros [Hpol|[Hpol|[]]]; rewrite Hpol.
  - exists {[ key self ]}. split; [set_solver|done].
  - exists (models.cascade db self). split; [apply cascade_includes_self|done].
Qed.

Lemma undelete_marks (self : Row) (db : Database) :
  ∃ ks, key self ∈ ks
        ∧ models.undelete self db = (None, models.mark_rows ks None db).
Proof.
  unfold models.undelete.
  destruct (models.get_delete_policy (cls self));
    try (exists {[ key self ]}; split; [set_solver|done]).
  exists (models.cascade db self). split; [apply cascade_includes_self|done].
Qed.

(** C6: [delete()] on a record whose model class has the [NO_DELETE]
    policy fails with the policy-violation error and leaves the database
    as it was: the record is neither removed nor marked deleted. *)
Theorem delete_no_delete_policy_fails (self : Row) (now : Z) (db : Database) :
  models.get_delete_policy (cls self) = NO_DELETE →
  models.delete self now db = (Some PolicyViolation, db).
Proof. unfold models.delete. by intros ->. Qed.

(** C7: for a record with a soft-delete policy, [delete()] hides the
    stored record from the default query, and [undelete()] after it
    brings it back: [delete()] and [undelete()] both succeed, after
    [delete()] no stored row with the record's key is in the default
    results, after [undelete()] every stored row with that key is, and a
    row that was in the default results before the delete is in them
    again, unchanged. *)
Theorem undelete_after_delete_restores_default_visibility
  (queryset_class : option QuerysetClass) (db_alias : option string)
  (self : Row) (now : Z) (db : Database) :
  models.get_delete_policy (cls self) ∈ [SOFT_DELETE; SOFT_DELETE_CASCADE] →
  let objects :=
    __init__ SafeDeleteManager queryset_class (cls self) db_alias in
  let db1 := (models.delete self now db).2 in
  let db2 := (models.undelete self db1).2 in
  (models.delete self now db).1 = None
  ∧ (models.undelete self db1).1 = None
  ∧ (∀ r, r ∈ db1 → key r = key self → r ∉ evaluate (all objects ∅) db1)
  ∧ (∀ r, r ∈ db → key r = key self →
          set_deleted None r ∈ evaluate (all objects ∅) db2)
  ∧ (∀ r, r ∈ db2 → key r = key self → r ∈ evaluate (all objects ∅) db2)
  ∧ (∀ r, r ∈ evaluate (all objects ∅) db → key r = key self →
          r ∈ evaluate (all objects ∅) db2).
Proof.
  intros Hpol objects db1 db2.
  destruct (soft_delete_marks self now db Hpol) as (ks1 & Hk1 & Hdel).
  destruct (undelete_marks self db1) as (ks2 & Hk2 & Hund).
  subst db2. rewrite Hund. subst db1. rewrite Hdel. simpl.
  assert (Hsel : ∀ r d, key r = key self →
            selects (all objects ∅) (set_deleted d r)
            = bool_decide (d = None)).
  { intros r d [= Hlabel _]. unfold selects; simpl.
    by rewrite bool_decide_eq_true_2, andb_true_r. }
  assert (Hback : ∀ r, r ∈ db → key r = key self →
            set_deleted None r
            ∈ evaluate (all objects ∅)
                (models.mark_rows ks2 None
                   (models.mark_rows ks1 (Some now) db))).
  { intros r Hr Hk. apply elem_of_evaluate. split; [|by rewrite Hsel].
    rewrite <- (set_deleted_set_deleted None (Some now) r).
    apply mark_rows_marked; [|by rewrite key_set_deleted, Hk].
    apply mark_rows_marked; [done|by rewrite Hk]. }
  split_and!; [done|done| |done| |].
  - intros r Hr Hk [_ Hs]%elem_of_evaluate.
    pose proof (mark_rows_inv ks1 (Some now) db r Hr) as Hm.
    rewrite Hk in Hm. specialize (Hm Hk1).
    rewrite <- (set_deleted_id r), Hm, Hsel in Hs by done.
    by rewrite bool_decide_eq_false_2 in Hs.
  - intros r Hr Hk. apply elem_of_evaluate. split; [done|].
    pose proof (mark_rows_inv ks2 None _ r Hr) as Hm.
    rewrite Hk in Hm. specialize (Hm Hk2).
    rewrite <- (set_deleted_id r), Hm, Hsel by done.
    by rewrite bool_decide_eq_true_2.
  - intros r [Hr Hs]%elem_of_evaluate Hk.
    rewrite <- (set_deleted_id r), Hsel in Hs by done.
    apply bool_decide_eq_true in Hs.
    rewrite <- (set_deleted_id r) at 1. rewrite Hs. by apply Hback.
Qed.

(** C8: uniqueness validation looks at soft-deleted rows too.  When a
    stored row of the model other than the record itself, whatever its
    deleted marker (a soft-deleted row in particular), holds the record's
    non-null value in a unique field, [validate_unique] fails with the
    validation error. *)
Theorem validate_unique_considers_soft_deleted
  (self r : Row) (db : Database) (f : Field) (v : Value) :
  r ∈ db →
  label (cls r) = label (cls self) →
  pk r ≠ pk self →
  f ∈ fields (cls self) →
  field_unique f = true →
  attrs self !! field_name f = Some v →
  attrs r !! field_name f = Some v →
  v ≠ VNone →
  models.validate_unique self db = Some ValidationError.
Proof.
  intros Hr Hlabel Hpk Hf Huniq Hself Hrow Hv. unfold models.validate_unique.
  assert (Hex : existsb
            (λ r, bool_decide (label (cls r) = label (cls self))
                  && negb (bool_decide (pk r = pk self))
                  && existsb (models.unique_clash self r) (fields (cls self)))
            db = true); [|by rewrite Hex].
  apply existsb_exists. exists r. split; [by apply list_elem_of_In|].
  rewrite bool_decide_eq_true_2, bool_decide_eq_false_2 by done. simpl.
  apply existsb_exists. exists f. split; [by apply list_elem_of_In|].
  unfold models.unique_clash. rewrite Huniq, Hself, Hrow. simpl.
  by rewrite bool_decide_eq_true_2, bool_decide_eq_false_2.
Qed.

End ModelMixin.

(** ** The properties at concrete inputs *)

Section Witnesses.

Import queryset managers test_legacy sample.

Lemma soft_deleted_hidden_by_default_shown_with_deleted_witness :
  let r := tag 2 "c" "green" (Some 7) in
  r ∈ tags ∧ label (cls r) = label Tag ∧ deleted r ≠ None
  ∧ (r ∉ evaluate (get_queryset objects) tags)
  ∧ (r ∉ evaluate (all objects ∅) tags)
  ∧ (∀ cs, r ∉ evaluate (apply_lookups (all objects ∅) cs) tags)
  ∧ r ∈ evaluate (all_with_deleted objects) tags.
Proof.
  intros r.
  assert (Hin : r ∈ tags) by (right; right; left).
  assert (Hdel : deleted r ≠ None) by discriminate.
  split_and!; [done..| | | |];
    apply (soft_deleted_hidden_by_default_shown_with_deleted
             None Tag None tags r Hin eq_refl Hdel).
Defined.

Lemma update_or_create_revives_then_delegates_witness :
  let kwargs : Kwargs := {[ "color" := VStr "green" ]} in
  let p := row_matches kwargs in
  lookups.exact_lookups (Exception := Empty_set) (model objects) kwargs
  = inr p
  ∧ models.get_delete_policy (model objects)
      ∈ [SOFT_DELETE; SOFT_DELETE_CASCADE]
  ∧ models.has_unique_fields (model objects) = true
  ∧ (∃ r0, r0 ∈ tags ∧ revivable_by objects p r0)
  ∧ ∃ r, r ∈ tags ∧ revivable_by objects p r
         ∧ lookups.pk_first (model objects)
             (soft_deleted_matches objects p tags) = Some r
         ∧ set_deleted None r ∈ models.save (set_deleted None r) tags
         ∧ (∀ x, x ∈ models.save (set_deleted None r) tags →
                 key x = key r → deleted x = None)
         ∧ update_or_create (Exception := Empty_set) lookups.exact_lookups
             lookups.pk_first observe objects None kwargs tags
           = inr (observe objects None kwargs
                    (models.save (set_deleted None r) tags)).
Proof.
  intros kwargs p.
  assert (Hpol : models.get_delete_policy (model objects)
                 ∈ [SOFT_DELETE; SOFT_DELETE_CASCADE]) by left.
  assert (Hex : ∃ r0, r0 ∈ tags ∧ revivable_by objects p r0).
  { exists (tag 3 "b" "green" (Some 9)). split; [right; left|].
    split_and!; [reflexivity|discriminate|vm_compute; reflexivity]. }
  split_and!; [done..|].
  exact (proj1 (proj2 (update_or_create_revives_then_delegates
                         lookups.exact_lookups lookups.pk_first observe
                         exact_lookups_deleted_None pk_first_elem
                         pk_first_None objects None kwargs tags)
                  p eq_refl)
           Hpol eq_refl Hex).
Defined.

Lemma update_or_create_revives_at_most_one_witness :
  let kwargs : Kwargs := {[ "color" := VStr "green" ]} in
  let p := row_matches kwargs in
  NoDup (key <$> tags)
  ∧ lookups.exact_lookups (Exception := Empty_set) (model objects) kwargs
    = inr p
  ∧ models.get_delete_policy (model objects)
      ∈ [SOFT_DELETE; SOFT_DELETE_CASCADE]
  ∧ models.has_unique_fields (model objects) = true
  ∧ (∃ r0, r0 ∈ tags ∧ revivable_by objects p r0)
  ∧ update_or_create (Exception := Empty_set) lookups.exact_lookups
      lookups.pk_first observe objects None kwargs tags
    = inr [tag 1 "a" "red" None; tag 3 "b" "green" (Some 9);
           tag 2 "c" "green" None]
  ∧ ∃ (i : nat) (r : Row),
      tags !! i = Some r
      ∧ revivable_by objects p r
      ∧ lookups.pk_first (model objects)
          (soft_deleted_matches objects p tags) = Some r
      ∧ update_or_create (Exception := Empty_set) lookups.exact_lookups
          lookups.pk_first observe objects None kwargs tags
        = inr (observe objects None kwargs
                 (<[i := set_deleted None r]> tags))
      ∧ <[i := set_deleted None r]> tags !! i = Some (set_deleted None r)
      ∧ ∀ j, j ≠ i → <[i := set_deleted None r]> tags !! j = tags !! j.
Proof.
  intros kwargs p.
  assert (Hnd : NoDup (key <$> tags)).
  { apply (bool_decide_eq_true (NoDup (key <$> tags))).
    vm_compute. reflexivity. }
  assert (Hpol : models.get_delete_policy (model objects)
                 ∈ [SOFT_DELETE; SOFT_DELETE_CASCADE]) by left.
  assert (Hex : ∃ r0, r0 ∈ tags ∧ revivable_by objects p r0).
  { exists (tag 3 "b" "green" (Some 9)). split; [right; left|].
    split_and!; [reflexivity|discriminate|vm_compute; reflexivity]. }
  split_and!; [done..|vm_compute; reflexivity|].
  exact (proj1 (proj2 (update_or_create_revives_at_most_one
                         lookups.exact_lookups lookups.pk_first observe
                         exact_lookups_deleted_None pk_first_elem
                         pk_first_None objects None kwargs tags Hnd)
                  p eq_refl)
           Hpol eq_refl Hex).
Defined.

Lemma delete_no_delete_policy_fails_witness :
  let r := mkRow VeryImportant 1 None {[ "name" := VStr "keep" ]} in
  models.get_delete_policy (cls r) = NO_DELETE
  ∧ models.delete r 7 [r] = (Some PolicyViolation, [r]).
Proof.
  intros r. split; [reflexivity|].
  apply (delete_no_delete_policy_fails r 7 [r]). reflexivity.
Defined.

Lemma undelete_after_delete_restores_default_visibility_witness :
  let self := category 1 "test" None in
  let db := [category 1 "test" None; category 2 "other" None] in
  let objects := __init__ SafeDeleteManager None Category None in
  let db1 := (models.delete self 7 db).2 in
  let db2 := (models.undelete self db1).2 in
  models.get_delete_policy (cls self) ∈ [SOFT_DELETE; SOFT_DELETE_CASCADE]
  ∧ (models.delete self 7 db).1 = None
  ∧ (models.undelete self db1).1 = None
  ∧ (∀ r, r ∈ db1 → key r = key self → r ∉ evaluate (all objects ∅) db1)
  ∧ (∀ r, r ∈ db → key r = key self →
          set_deleted None r ∈ evaluate (all objects ∅) db2)
  ∧ (∀ r, r ∈ db2 → key r = key self → r ∈ evaluate (all objects ∅) db2)
  ∧ (∀ r, r ∈ evaluate (all objects ∅) db → key r = key self →
          r ∈ evaluate (all objects ∅) db2).
Proof.
  intros self db objects db1 db2.
  assert (Hpol : models.get_delete_policy (cls self)
                 ∈ [SOFT_DELETE; SOFT_DELETE_CASCADE]) by left.
  split; [done|].
  exact (undelete_after_delete_restores_default_visibility
           None None self 7 db Hpol).
Defined.

Lemma validate_unique_considers_soft_deleted_witness :
  let self := category 2 "test" None in
  let r := category 1 "test" (Some 7) in
  let f := mkField "name" true in
  r ∈ after_create_delete
  ∧ deleted r ≠ None
  ∧ label (cls r) = label (cls self)
  ∧ pk r ≠ pk self
  ∧ f ∈ fields (cls self)
  ∧ field_unique f = true
  ∧ attrs self !! field_name f = Some (VStr "test")
  ∧ attrs r !! field_name f = Some (VStr "test")
  ∧ VStr "test" ≠ VNone
  ∧ models.validate_unique self after_create_delete = Some ValidationError.
Proof.
  intros self r f.
  assert (Hin : r ∈ after_create_delete) by (vm_compute; left).
  assert (Hpk : pk r ≠ pk self) by discriminate.
  assert (Hf : f ∈ fields (cls self)) by left.
  assert (Hself : attrs self !! field_name f = Some (VStr "test"))
    by (vm_compute; reflexivity).
  assert (Hrow : attrs r !! field_name f = Some (VStr "test"))
    by (vm_compute; reflexivity).
  assert (Hv : VStr "test" ≠ VNone) by discriminate.
  split_and!; [done..|].
  exact (validate_unique_considers_soft_deleted
           self r after_create_delete f (VStr "test")
           Hin eq_refl Hpk Hf eq_refl Hself Hrow Hv).
Defined.

End Witnesses.

(** * Further properties of the manager *)

(** ** Keyword arguments and the queryset class *)

Section EntryPointProperties.

Import queryset managers sample.

(** X1: [all] reads no keyword but [force_visibility]: setting or removing
    any other keyword (the [show_deleted] of its docstring included)
    changes nothing. *)
Theorem all_ignores_other_keywords (self : Manager)
  (kwargs : gmap string (option Visibility)) (name : string)
  (v : option Visibility) :
  name ≠ "force_visibility" →
  all self (<[ name := v ]> kwargs) = all self kwargs
  ∧ all self (delete name kwargs) = all self kwargs.
Proof.
  intros Hname. unfold all.
  by rewrite lookup_insert_ne, lookup_delete_ne.
Qed.

Lemma all_ignores_other_keywords_witness :
  "show_deleted" ≠ "force_visibility"
  ∧ all objects (<[ "show_deleted" := Some DELETED_VISIBLE ]> ∅) = all objects ∅
  ∧ all objects (delete "show_deleted" ∅) = all objects ∅.
Proof.
  assert (Hname : "show_deleted" ≠ "force_visibility") by discriminate.
  split; [done|].
  exact (all_ignores_other_keywords objects ∅ "show_deleted"
           (Some DELETED_VISIBLE) Hname).
Defined.

(** X2: the queryset class handed to [__init__] is the class of every
    queryset the manager hands out, [SafeDeleteQueryset] when none is
    given; it changes neither the visibility mode and field (those of the
    manager class), nor the model, the database alias or what [all]
    forces. *)
Theorem queryset_class_hook (klass : ManagerClass)
  (queryset_class : option QuerysetClass) (m : Model)
  (db_alias : option string) (kwargs : gmap string (option Visibility)) :
  let qs := all (__init__ klass queryset_class m db_alias) kwargs in
  queryset.queryset_class qs
  = default SafeDeleteQueryset_class queryset_class
  ∧ queryset.queryset_class
      (get_queryset (__init__ klass queryset_class m db_alias))
    = default SafeDeleteQueryset_class queryset_class
  ∧ queryset._safedelete_visibility qs = class_safedelete_visibility klass
  ∧ queryset._safedelete_visibility_field qs = "pk"
  ∧ queryset.model qs = m
  ∧ queryset._db qs = db_alias
  ∧ _safedelete_force_visibility qs
    = default None (kwargs !! "force_visibility")
  ∧ clauses qs = [].
Proof.
  intros qs. subst qs. unfold all.
  destruct (default None (kwargs !! "force_visibility"));
    destruct queryset_class; done.
Qed.

End EntryPointProperties.

(** ** The three managers against the three entry points *)

Section ManagerClassProperties.

Import queryset managers sample.

(** Results in two modes whose filters split a third. *)
Lemma filter_length_split (p q1 q2 : Row → bool) (rows : list Row) :
  (∀ r, p r = xorb (q1 r) (q2 r)) →
  (∀ r, q1 r && q2 r = false) →
  length (List.filter p rows)
  = (length (List.filter q1 rows) + length (List.filter q2 rows))%nat.
Proof.
  intros Hp Hq. induction rows as [|r rows IH]; simpl; [done|].
  rewrite Hp. specialize (Hq r).
  destruct (q1 r), (q2 r); simpl in *; try discriminate; lia.
Qed.

(** X3: the two subclasses are the forced entry points under another
    name: the default queryset of a [SafeDeleteAllManager] returns the
    rows [all_with_deleted()] returns on any manager of the model, and
    that of a [SafeDeleteDeletedManager] the rows [deleted_only()]
    returns. *)
Theorem subclass_managers_match_forced_entry_points (self : Manager)
  (queryset_class : option QuerysetClass) (db_alias : option string)
  (db : Database) :
  evaluate
    (get_queryset
       (__init__ SafeDeleteAllManager queryset_class (model self) db_alias))
    db
  = evaluate (all_with_deleted self) db
  ∧ evaluate
      (get_queryset
         (__init__ SafeDeleteDeletedManager queryset_class (model self)
            db_alias))
      db
    = evaluate (deleted_only self) db.
Proof.
  rewrite all_with_deleted_eq, deleted_only_eq. unfold evaluate.
  split; apply filter_ext; intros r;
    by rewrite selects_get_queryset, selects_forced.
Qed.

(** X4: on any manager, the rows of [all_with_deleted()] are those of a
    hidden-mode manager of the model together with those of
    [deleted_only()]: a row is in the first exactly when it is in one of
    the other two, never in both, and the counts add up. *)
Theorem all_with_deleted_splits (self : Manager)
  (queryset_class : option QuerysetClass) (db_alias : option string)
  (db : Database) :
  let objects :=
    __init__ SafeDeleteManager queryset_class (model self) db_alias in
  (∀ r, r ∈ evaluate (all_with_deleted self) db
        ↔ r ∈ evaluate (all objects ∅) db ∨ r ∈ evaluate (deleted_only self) db)
  ∧ (∀ r, r ∈ evaluate (all objects ∅) db →
          r ∉ evaluate (deleted_only self) db)
  ∧ length (evaluate (all_with_deleted self) db)
    = (length (evaluate (all objects ∅) db)
       + length (evaluate (deleted_only self) db))%nat.
Proof.
  intros objects.
  rewrite all_with_deleted_eq, deleted_only_eq, all_no_arguments.
  assert (Hsel : ∀ r,
    selects (set_safedelete_force_visibility DELETED_VISIBLE
               (get_queryset self)) r
    = xorb (selects (get_queryset objects) r)
           (selects (set_safedelete_force_visibility DELETED_ONLY_VISIBLE
                       (get_queryset self)) r)).
  { intros r. rewrite !selects_forced, selects_get_queryset. simpl.
    destruct (bool_decide (label (cls r) = label (model self)));
      destruct (bool_decide (deleted r = None)); done. }
  assert (Hdisj : ∀ r,
    selects (get_queryset objects) r
    && selects (set_safedelete_force_visibility DELETED_ONLY_VISIBLE
                  (get_queryset self)) r = false).
  { intros r. rewrite !selects_forced, selects_get_queryset. simpl.
    destruct (bool_decide (label (cls r) = label (model self)));
      destruct (bool_decide (deleted r = None)); done. }
  split_and!.
  - intros r. rewrite !elem_of_evaluate, Hsel. specialize (Hdisj r).
    destruct (selects (get_queryset objects) r),
      (selects (set_safedelete_force_visibility DELETED_ONLY_VISIBLE
                  (get_queryset self)) r); simpl in *; naive_solver.
  - intros r [_ H1]%elem_of_evaluate [_ H2]%elem_of_evaluate.
    specialize (Hdisj r). by rewrite H1, H2 in Hdisj.
  - unfold evaluate. by apply filter_length_split.
Qed.

End ManagerClassProperties.

(** ** What the revival step leaves alone *)

Section RevivalFrame.

Import queryset managers sample.

(** The revival step does nothing or saves one revivable row with its
    marker cleared. *)
Lemma revival_cases (self : Manager) (kwargs : Kwargs) (db : Database) :
  update_or_create_revival self kwargs db = db
  ∨ ∃ r, r ∈ db ∧ revivable self kwargs r
         ∧ update_or_create_revival self kwargs db
           = (λ x, if bool_decide (key x = key r)
                   then set_deleted None r else x) <$> db.
Proof.
  unfold update_or_create_revival. destruct (_ && _); [|by left].
  pose proof (first_revival_query self kwargs db) as Hfirst.
  destruct (first _ db) as [r|]; [|by left].
  destruct Hfirst as (Hin & Hrev & _). right. exists r. split_and!; [done..|].
  rewrite (save_stored (set_deleted None r) db); [done|].
  rewrite key_set_deleted. by apply list_elem_of_fmap_2.
Qed.

Lemma revival_keys (self : Manager) (kwargs : Kwargs) (db : Database) :
  key <$> update_or_create_revival self kwargs db = key <$> db.
Proof.
  destruct (revival_cases self kwargs db) as [->|(r & _ & _ & ->)]; [done|].
  rewrite <- list_fmap_compose. apply list_fmap_ext. intros i x _. simpl.
  case_bool_decide as Hk; [|done]. by rewrite key_set_deleted.
Qed.







End RevivalFrame.

(** ** How many rows a call revives *)

Section RevivalCount.

Import queryset managers sample.

Local Open Scope nat_scope.




Lemma revival_keeps_NoDup (self : Manager) (kwargs : Kwargs) (db : Database) :
  NoDup (key <$> db) →
  NoDup (key <$> update_or_create_revival self kwargs db).
Proof.
  intros Hnd. by rewrite revival_keys.
Qed.




End RevivalCount.

(** ** What the base class finds after the revival *)

Section RevivalLookup.

Import queryset managers sample.







End RevivalLookup.

(** ** The lookup properties at concrete inputs *)

Section RevivalLookupWitnesses.

Import queryset managers sample.




End RevivalLookupWitnesses.

Section RevivalKeysWitness.

Import managers sample.


End RevivalKeysWitness.
